(** * Vector and ray algebra of the ray tracer ([vector.h])

    A shallow embedding of [Vec2<T>], [Vec3<T>], the free operators on
    [Vec3<T>], [dot], [cross], [reflect], [random_in_unit_sphere] and [Ray].

    The template parameter [T] is rendered as a type class [Scalar] that
    lists the arithmetic the header applies to a component.  The header only
    ever instantiates [Vec3<>], that is [T = double], and freely mixes [T]
    with [double] (the scale factor of [operator*], the result of [dot] and
    [squared_length]); the embedding therefore uses one scalar type for both.
    Only the members the stated properties refer to are embedded; [floor],
    which needs [std::floor], and the stream output operators are not.
    Two instances are given:
      - [binary64], IEEE-754 double precision as specified by the standard
        library's [SpecFloat] (round to nearest even, signed zeros, infinities,
        one NaN);
      - [R], exact real arithmetic, for the algebraic reading of [reflect]. *)

From Stdlib Require Import ZArith Bool Lia List.
From Stdlib Require Import SpecFloat.
From Stdlib Require Import Reals Lra.

Local Open Scope Z_scope.

(** ** The scalar interface of the template parameter *)

Declare Scope scalar_scope.
Delimit Scope scalar_scope with S.

Class Scalar (T : Type) : Type := {
  (** a literal with an integral value: [0.0], [1.0], [2], [2.0]; [lit 0]
      is also the value-initialised [T{}] *)
  lit : Z -> T;
  add : T -> T -> T;
  sub : T -> T -> T;
  mul : T -> T -> T;
  div : T -> T -> T;
  opp : T -> T;
  (** [std::sqrt] *)
  sqrt : T -> T;
  (** [==] and [<=] on components *)
  eqb : T -> T -> bool;
  leb : T -> T -> bool
}.

(** [a >= b] is [b <= a] for every arithmetic type of the language. *)
Definition geb {T} `{Scalar T} (a b : T) : bool := leb b a.

Infix "+" := add : scalar_scope.
Infix "-" := sub : scalar_scope.
Infix "*" := mul : scalar_scope.
Infix "/" := div : scalar_scope.
Notation "- a" := (opp a) : scalar_scope.
Infix "==" := eqb (at level 70, no associativity) : scalar_scope.
Infix "<=" := leb : scalar_scope.
Infix ">=" := geb : scalar_scope.

(** ** IEEE-754 binary64 ([double]) *)

Module B64.

Definition prec : Z := 53.
Definition emax : Z := 1024.

Abbreviation double := spec_float.

Definition of_Z (n : Z) : double := binary_normalize prec emax n 0 false.

Definition nan : double := S754_nan.
Definition pzero : double := S754_zero false.
Definition nzero : double := S754_zero true.

Definition is_nan (a : double) : bool :=
  match a with S754_nan => true | _ => false end.

Definition is_inf (a : double) : bool :=
  match a with S754_infinity _ => true | _ => false end.

Definition is_zero (a : double) : bool :=
  match a with S754_zero _ => true | _ => false end.

(** [a < b] *)
Definition ltb (a b : double) : bool := SFltb a b.

(** Neither NaN nor negative: the shape of every square and of every sum
    of squares. *)
Definition nonneg (a : double) : bool :=
  match a with
  | S754_zero _ => true
  | S754_infinity s => negb s
  | S754_finite s _ _ => negb s
  | S754_nan => false
  end.

End B64.

#[export] Instance binary64 : Scalar B64.double := {
  lit := B64.of_Z;
  add := SFadd B64.prec B64.emax;
  sub := SFsub B64.prec B64.emax;
  mul := SFmul B64.prec B64.emax;
  div := SFdiv B64.prec B64.emax;
  opp := SFopp;
  sqrt := SFsqrt B64.prec B64.emax;
  eqb := SFeqb;
  leb := SFleb
}.

(** ** Exact real arithmetic *)

Definition Reqb (a b : R) : bool := if Req_dec_T a b then true else false.
Definition Rleb (a b : R) : bool := if Rle_dec a b then true else false.

#[export] Instance exact : Scalar R := {
  lit := IZR;
  add := Rplus;
  sub := Rminus;
  mul := Rmult;
  div := Rdiv;
  opp := Ropp;
  sqrt := R_sqrt.sqrt;
  eqb := Reqb;
  leb := Rleb
}.

(** ** [Vec3<T>] *)

Module Vec3.

Record t (T : Type) : Type := mk { x : T; y : T; z : T }.
Arguments mk {T} _ _ _.
Arguments x {T} _.
Arguments y {T} _.
Arguments z {T} _.

Section Ops.
Context {T : Type} `{Scalar T}.
Local Open Scope scalar_scope.

(** [Vec3()], [Vec3(value)] *)
Definition zero : t T := mk (lit 0) (lit 0) (lit 0).
Definition splat (value : T) : t T := mk value value value.

(** [operator-() const] *)
Definition neg (v : t T) : t T := mk (- x v) (- y v) (- z v).

(** [operator[](size_t i) const]; [size_t] is unsigned and the index is
    only inspected, so it is a natural number. *)
Definition index (v : t T) (i : N) : T :=
  match i with
  | 0%N => x v
  | 1%N => y v
  | 2%N => z v
  | _ => lit 0
  end.

(** [operator==(T rhs)], [operator<=(T rhs)] *)
Definition eq_scalar (v : t T) (rhs : T) : bool :=
  (x v == rhs) && (y v == rhs) && (z v == rhs).
Definition le_scalar (v : t T) (rhs : T) : bool :=
  (x v <= rhs) && (y v <= rhs) && (z v <= rhs).

Definition length (v : t T) : T :=
  sqrt (x v * x v + y v * y v + z v * z v).
Definition squared_length (v : t T) : T :=
  x v * x v + y v * y v + z v * z v.

(** [normalize()] updates the object in place; the result is the object
    after the call.  The length is read once, before any component is
    overwritten. *)
Definition normalize (v : t T) : t T :=
  let lng := length v in
  let v1 := mk (x v / lng) (y v) (z v) in
  let v2 := mk (x v1) (y v1 / lng) (z v1) in
  mk (x v2) (y v2) (z v2 / lng).
Definition normalized (v : t T) : t T :=
  let lng := length v in mk (x v / lng) (y v / lng) (z v / lng).

(** Free operators *)
Definition scale_r (v : t T) (r : T) : t T := mk (x v * r) (y v * r) (z v * r).
Definition scale_l (l : T) (v : t T) : t T := mk (x v * l) (y v * l) (z v * l).
Definition hadamard (l r : t T) : t T := mk (x l * x r) (y l * y r) (z l * z r).
Definition plus (l r : t T) : t T := mk (x l + x r) (y l + y r) (z l + z r).
Definition plus_scalar (l : t T) (r : T) : t T := mk (x l + r) (y l + r) (z l + r).
Definition minus (l r : t T) : t T := mk (x l - x r) (y l - y r) (z l - z r).
Definition div_scalar (l : t T) (r : T) : t T := mk (x l / r) (y l / r) (z l / r).

(** [sum() const] *)
Definition sum (v : t T) : T := x v + y v + z v.

(** The compound assignments update the left operand in place, one
    component after the other; the result is the left operand after the
    call. *)
Definition plus_assign (l r : t T) : t T :=
  let l1 := mk (x l + x r) (y l) (z l) in
  let l2 := mk (x l1) (y l1 + y r) (z l1) in
  mk (x l2) (y l2) (z l2 + z r).
Definition div_assign (l r : t T) : t T :=
  let l1 := mk (x l / x r) (y l) (z l) in
  let l2 := mk (x l1) (y l1 / y r) (z l1) in
  mk (x l2) (y l2) (z l2 / z r).
Definition div_assign_scalar (l : t T) (r : T) : t T :=
  let l1 := mk (x l / r) (y l) (z l) in
  let l2 := mk (x l1) (y l1 / r) (z l1) in
  mk (x l2) (y l2) (z l2 / r).

Definition dot (l r : t T) : T := x l * x r + y l * y r + z l * z r.

Definition cross (l r : t T) : t T :=
  mk (y l * z r - z l * y r) (- (x l * z r - z l * x r)) (x l * y r - y l * x r).

(** [v - 2*dot(v, n)*n]: the product parses as [(2*dot(v, n))*n], a
    scalar on the left of a vector. *)
Definition reflect (v n : t T) : t T :=
  minus v (scale_l (lit 2 * dot v n) n).
End Ops.

End Vec3.

(** ** [Vec2<T>] *)

Module Vec2.

Record t (T : Type) : Type := mk { x : T; y : T }.
Arguments mk {T} _ _.
Arguments x {T} _.
Arguments y {T} _.

Section Ops.
Context {T : Type} `{Scalar T}.
(** [std::pow] is a function of the C library, not of the header. *)
Variable pow : T -> T -> T.
Local Open Scope scalar_scope.

Definition zero : t T := mk (lit 0) (lit 0).

Definition sum (v : t T) : T := x v + y v.
Definition dot (v u : t T) : T := x v * x u + y v * y u.
Definition plus (v rhs : t T) : t T := mk (x v + x rhs) (y v + y rhs).
Definition minus (v rhs : t T) : t T := mk (x v - x rhs) (y v - y rhs).
Definition eq (v rhs : t T) : bool := (x v == x rhs) && (y v == y rhs).

Definition length (v : t T) : T :=
  sqrt (pow (x v) (lit 2) + pow (y v) (lit 2)).

Definition normalized (v : t T) : t T :=
  let lng := length v in mk (x v / lng) (y v / lng).
Definition normalize (v : t T) : t T :=
  let lng := length v in
  let v1 := mk (x v / lng) (y v) in
  mk (x v1) (y v1 / lng).
End Ops.

End Vec2.

(** ** [random_in_unit_sphere]

    [drand48] reads a process-wide generator.  The generator is a stream
    [rs] of results together with the position of the next unread one; a
    call returns the value at the position and advances it. *)

Module Random.

Section Sampler.
Context {T : Type} `{Scalar T}.
Variable rs : nat -> T.
Local Open Scope scalar_scope.

Definition drand48 (k : nat) : T * nat := (rs k, S k).

(** One pass through the body of the [do] loop.  The braced initialiser
    evaluates its three calls from left to right. *)
Definition body (k : nat) : Vec3.t T * nat :=
  let '(r1, k1) := drand48 k in
  let '(r2, k2) := drand48 k1 in
  let '(r3, k3) := drand48 k2 in
  (Vec3.minus (Vec3.scale_l (lit 2) (Vec3.mk r1 r2 r3)) (Vec3.splat (lit 1)), k3).

(** [do { ... } while (p.squared_length() >= 1.0); return p;] with a
    bound on the number of passes; [None] means the loop is still
    running when the bound is reached. *)
Fixpoint random_in_unit_sphere (fuel k : nat) : option (Vec3.t T * nat) :=
  match fuel with
  | O => None
  | S fuel' =>
      let '(p, k') := body k in
      if Vec3.squared_length p >= lit 1
      then random_in_unit_sphere fuel' k'
      else Some (p, k')
  end.

(** The candidate of the [i]-th pass of a call that starts reading the
    stream at position [k]. *)
Definition candidate (k i : nat) : Vec3.t T :=
  let j := (k + 3 * i)%nat in
  Vec3.minus
    (Vec3.scale_l (lit 2) (Vec3.mk (rs j) (rs (S j)) (rs (S (S j)))))
    (Vec3.splat (lit 1)).
End Sampler.

End Random.

(** ** [Ray] *)

Module Ray.

Record t (T : Type) : Type := mk { A : Vec3.t T; B : Vec3.t T }.
Arguments mk {T} _ _.
Arguments A {T} _.
Arguments B {T} _.

Section Ops.
Context {T : Type} `{Scalar T}.

(** [Ray() = default]: both members are default-constructed by
    [Vec3()]. *)
Definition default : t T := mk Vec3.zero Vec3.zero.

(** [operator()(double t)] *)
Definition at_ (r : t T) (t0 : T) : Vec3.t T :=
  Vec3.plus (A r) (Vec3.scale_l t0 (B r)).

Definition origin (r : t T) : Vec3.t T := A r.
Definition direction (r : t T) : Vec3.t T := B r.
End Ops.

End Ray.

(** * Properties of binary64 arithmetic *)

Module B64Facts.
Import B64.

Lemma shr_1_nonneg mrs : 0 <= shr_m mrs -> 0 <= shr_m (shr_1 mrs).
Proof.
  destruct mrs as [m r s]; simpl.
  destruct m as [|[p|p|]|[p|p|]]; simpl; lia.
Qed.

Lemma iter_shr_1_nonneg p :
  forall mrs, 0 <= shr_m mrs -> 0 <= shr_m (SpecFloat.iter_pos shr_1 p mrs).
Proof.
  induction p as [p IH|p IH|]; intros mrs Hm; simpl.
  - apply IH, IH, shr_1_nonneg, Hm.
  - apply IH, IH, Hm.
  - apply shr_1_nonneg, Hm.
Qed.

Lemma shr_fexp_nonneg m e l :
  0 <= m -> 0 <= shr_m (fst (shr_fexp prec emax m e l)).
Proof.
  intros Hm. unfold shr_fexp, shr.
  assert (H0 : 0 <= shr_m (shr_record_of_loc m l))
    by (destruct l as [|[]]; exact Hm).
  destruct (fexp prec emax (Zdigits2 m + e) - e) as [|p|p]; simpl; auto.
  apply iter_shr_1_nonneg, H0.
Qed.

Lemma round_nearest_even_nonneg m l : 0 <= m -> 0 <= round_nearest_even m l.
Proof.
  intros Hm. destruct l as [|[]]; simpl; try lia.
  destruct (Z.even m); lia.
Qed.

(** A value that is not NaN and carries the sign [s]. *)
Definition signed (s : bool) (a : double) : Prop :=
  match a with
  | S754_zero s' | S754_infinity s' | S754_finite s' _ _ => s' = s
  | S754_nan => False
  end.

Lemma binary_round_aux_signed sx mx ex lx :
  0 <= mx -> signed sx (binary_round_aux prec emax sx mx ex lx).
Proof.
  intros Hm. unfold binary_round_aux.
  pose proof (shr_fexp_nonneg mx ex lx Hm) as H1.
  destruct (shr_fexp prec emax mx ex lx) as [mrs' e']; simpl in H1.
  pose proof (shr_fexp_nonneg
                (round_nearest_even (shr_m mrs') (loc_of_shr_record mrs'))
                e' loc_Exact (round_nearest_even_nonneg _ _ H1)) as H2.
  destruct (shr_fexp prec emax _ e' loc_Exact) as [mrs'' e'']; simpl in H2.
  destruct (shr_m mrs'') as [|m|m]; simpl.
  - reflexivity.
  - destruct (_ <=? _); simpl; reflexivity.
  - lia.
Qed.

Lemma binary_round_signed sx mx ex :
  signed sx (binary_round prec emax sx mx ex).
Proof.
  unfold binary_round.
  destruct (shl_align mx ex _) as [mz ez].
  apply binary_round_aux_signed. lia.
Qed.

Lemma signed_not_nan s a : signed s a -> is_nan a = false.
Proof. destruct a; simpl; intros Hs; auto; contradiction. Qed.

Lemma signed_nonneg a : signed false a -> nonneg a = true.
Proof. destruct a; simpl; intros Hs; subst; auto; contradiction. Qed.

Lemma nonneg_not_nan a : nonneg a = true -> is_nan a = false.
Proof. destruct a; simpl; auto. Qed.

Lemma binary_normalize_not_nan m e :
  is_nan (binary_normalize prec emax m e false) = false.
Proof.
  destruct m as [|p|p]; simpl; auto;
    eapply signed_not_nan, binary_round_signed.
Qed.

(** *** Where NaN can and cannot arise *)

Lemma mul_finite_not_nan a s m e :
  is_nan a = false -> is_nan (SFmul prec emax a (S754_finite s m e)) = false.
Proof.
  destruct a as [sa|sa| |sa ma ea]; simpl; intros Ha; auto.
  eapply signed_not_nan, binary_round_aux_signed. lia.
Qed.

Lemma sub_finite_not_nan a s m e :
  is_nan a = false -> is_nan (SFsub prec emax a (S754_finite s m e)) = false.
Proof.
  destruct a as [sa|sa| |sa ma ea]; simpl; intros Ha; auto.
  apply binary_normalize_not_nan.
Qed.

Lemma square_nonneg a :
  is_nan a = false -> nonneg (SFmul prec emax a a) = true.
Proof.
  destruct a as [sa|sa| |sa ma ea]; simpl; intros Ha;
    try discriminate; try (destruct sa; reflexivity).
  apply signed_nonneg.
  replace false with (xorb sa sa) at 1 by (destruct sa; reflexivity).
  apply binary_round_aux_signed. lia.
Qed.

Lemma add_nonneg a b :
  nonneg a = true -> nonneg b = true -> nonneg (SFadd prec emax a b) = true.
Proof.
  destruct a as [sa|sa| |sa ma ea], b as [sb|sb| |sb mb eb]; simpl;
    intros Ha Hb; try discriminate; auto;
    try (destruct sa, sb; simpl in *; auto; discriminate).
  destruct sa, sb; simpl in *; try discriminate.
  apply signed_nonneg, binary_round_signed.
Qed.

(** *** Comparisons *)

Lemma SFcompare_antisym a b :
  SFcompare b a = option_map CompOpp (SFcompare a b).
Proof.
  destruct a as [sa|sa| |sa ma ea], b as [sb|sb| |sb mb eb]; simpl;
    try reflexivity; try (destruct sa; reflexivity);
    try (destruct sb; reflexivity); try (destruct sa, sb; reflexivity).
  destruct sa, sb; simpl; try reflexivity;
    rewrite (Z.compare_antisym ea eb); destruct (ea ?= eb); simpl;
    try reflexivity;
    pose proof (Pos.compare_cont_antisym ma mb Eq) as Hm; simpl in Hm;
    rewrite <- Hm; destruct (Pos.compare_cont Eq ma mb); reflexivity.
Qed.

Lemma SFcompare_not_nan a b :
  is_nan a = false -> is_nan b = false -> SFcompare a b <> None.
Proof.
  destruct a, b; simpl; intros Ha Hb; congruence.
Qed.

(** On operands that are not NaN, [a >= b] is the negation of [a < b]. *)
Lemma geb_negb_ltb (a b : double) :
  is_nan a = false -> is_nan b = false -> geb a b = negb (ltb a b).
Proof.
  intros Ha Hb. unfold geb, ltb; simpl. unfold SFleb, SFltb.
  rewrite (SFcompare_antisym a b).
  pose proof (SFcompare_not_nan a b Ha Hb) as Hc.
  destruct (SFcompare a b) as [[]|]; simpl; congruence.
Qed.

(** [a < b] alone already excludes [a >= b]. *)
Lemma ltb_geb (a b : double) : ltb a b = true -> geb a b = false.
Proof.
  unfold geb, ltb; simpl. unfold SFleb, SFltb.
  rewrite (SFcompare_antisym a b).
  destruct (SFcompare a b) as [[]|]; simpl; congruence.
Qed.

Lemma leb_not_nan_r (a b : double) : leb a b = true -> is_nan b = false.
Proof.
  simpl. unfold SFleb. destruct a, b; simpl; congruence.
Qed.

End B64Facts.

(** * The rejection loop of [random_in_unit_sphere] on binary64 *)

Module RandomFacts.
Import B64 B64Facts Random.

(** [0 <= r < 1], the range of [drand48]. *)
Definition in_unit_interval (r : double) : bool :=
  leb (lit 0) r && ltb r (lit 1).

(** The acceptance test as the specification words it. *)
Definition accepted (p : Vec3.t double) : bool :=
  ltb (Vec3.squared_length p) (lit 1).

Lemma lit_1 : lit 1 = S754_finite false 4503599627370496 (-52).
Proof. reflexivity. Qed.

Lemma lit_2 : lit 2 = S754_finite false 4503599627370496 (-51).
Proof. reflexivity. Qed.

Lemma in_unit_interval_not_nan r :
  in_unit_interval r = true -> is_nan r = false.
Proof.
  unfold in_unit_interval. intros Hr.
  apply andb_prop in Hr. destruct Hr as [H0 _].
  exact (leb_not_nan_r _ _ H0).
Qed.

Lemma remap_not_nan r :
  is_nan r = false -> is_nan (sub (mul r (lit 2)) (lit 1)) = false.
Proof.
  intros Hr. rewrite lit_1, lit_2.
  apply sub_finite_not_nan, mul_finite_not_nan, Hr.
Qed.

Lemma squared_length_nonneg (v : Vec3.t double) :
  is_nan (Vec3.x v) = false -> is_nan (Vec3.y v) = false ->
  is_nan (Vec3.z v) = false ->
  nonneg (Vec3.squared_length v) = true.
Proof.
  intros Hx Hy Hz. unfold Vec3.squared_length.
  apply add_nonneg; [apply add_nonneg|]; apply square_nonneg; assumption.
Qed.

Section Stream.
Variable rs : nat -> double.
Hypothesis rs_not_nan : forall k, is_nan (rs k) = false.

Lemma body_candidate k : body rs k = (candidate rs k 0, (k + 3)%nat).
Proof.
  unfold body, candidate, drand48.
  replace (k + 3 * 0)%nat with k by lia.
  replace (k + 3)%nat with (S (S (S k))) by lia.
  reflexivity.
Qed.

Lemma candidate_shift k i : candidate rs (k + 3) i = candidate rs k (S i).
Proof.
  unfold candidate.
  replace (k + 3 + 3 * i)%nat with (k + 3 * S i)%nat by lia.
  reflexivity.
Qed.

Lemma candidate_squared_length_not_nan k i :
  is_nan (Vec3.squared_length (candidate rs k i)) = false.
Proof.
  apply nonneg_not_nan, squared_length_nonneg; unfold candidate; simpl;
    apply remap_not_nan, rs_not_nan.
Qed.

(** On a candidate the loop condition [>= 1.0] is exactly the failure of
    the acceptance test [< 1]. *)
Lemma loop_condition k i :
  geb (Vec3.squared_length (candidate rs k i)) (lit 1)
  = negb (accepted (candidate rs k i)).
Proof.
  unfold accepted. apply geb_negb_ltb.
  - apply candidate_squared_length_not_nan.
  - reflexivity.
Qed.

Lemma unfold_loop fuel k :
  random_in_unit_sphere rs (S fuel) k
  = if accepted (candidate rs k 0)
    then Some (candidate rs k 0, (k + 3)%nat)
    else random_in_unit_sphere rs fuel (k + 3).
Proof.
  cbn [random_in_unit_sphere]. rewrite body_candidate, loop_condition.
  destruct (accepted (candidate rs k 0)); reflexivity.
Qed.

Lemma first_accepted_returned j :
  forall k,
    (forall i, (i < j)%nat -> accepted (candidate rs k i) = false) ->
    accepted (candidate rs k j) = true ->
    forall fuel, (j < fuel)%nat ->
      random_in_unit_sphere rs fuel k
      = Some (candidate rs k j, (k + 3 * S j)%nat).
Proof.
  induction j as [|j IH]; intros k Hrej Hacc fuel Hfuel;
    (destruct fuel as [|fuel]; [lia|]); rewrite unfold_loop.
  - rewrite Hacc. reflexivity.
  - rewrite (Hrej 0%nat) by lia.
    rewrite (IH (k + 3)%nat).
    + rewrite candidate_shift.
      replace (k + 3 + 3 * S j)%nat with (k + 3 * S (S j))%nat by lia.
      reflexivity.
    + intros i Hi. rewrite candidate_shift. apply Hrej. lia.
    + rewrite candidate_shift. exact Hacc.
    + lia.
Qed.

Lemma returned_is_accepted fuel :
  forall k p k',
    random_in_unit_sphere rs fuel k = Some (p, k') -> accepted p = true.
Proof.
  induction fuel as [|fuel IH]; intros k p k' Hret.
  - discriminate.
  - rewrite unfold_loop in Hret.
    destruct (accepted (candidate rs k 0)) eqn:Hacc.
    + injection Hret as <- _. exact Hacc.
    + eapply IH, Hret.
Qed.

Lemma still_looping n :
  forall k,
    (forall i, (i < n)%nat -> accepted (candidate rs k i) = false) ->
    random_in_unit_sphere rs n k = None.
Proof.
  induction n as [|n IH]; intros k Hrej.
  - reflexivity.
  - rewrite unfold_loop, (Hrej 0%nat) by lia.
    apply IH. intros i Hi. rewrite candidate_shift. apply Hrej. lia.
Qed.
End Stream.

End RandomFacts.

(** * The properties of the header *)

Import B64.

(** [Vec3<>(a, b, c)] with integral arguments, converted to [double]. *)
Definition vec3 (a b c : Z) : Vec3.t double :=
  Vec3.mk (of_Z a) (of_Z b) (of_Z c).

(** C1: indexed read access is total; index 0, 1, 2 reads x, y, z and every
    other index reads the value-initialised [T{}], for every component type.
    On doubles, [Vec3(1,2,3)[0] = 1], [[1] = 2], [[2] = 3] and [[3] = 0]. *)
Theorem index_total_with_zero_fallback :
  (forall (T : Type) (S : Scalar T) (v : Vec3.t T) (i : N),
      Vec3.index v i =
        if (i =? 0)%N then Vec3.x v
        else if (i =? 1)%N then Vec3.y v
        else if (i =? 2)%N then Vec3.z v
        else lit 0)
  /\ Vec3.index (vec3 1 2 3) 0 = of_Z 1
  /\ Vec3.index (vec3 1 2 3) 1 = of_Z 2
  /\ Vec3.index (vec3 1 2 3) 2 = of_Z 3
  /\ Vec3.index (vec3 1 2 3) 3 = of_Z 0
  /\ of_Z 0 = pzero.
Proof.
  split; [|repeat split].
  intros T S v i.
  destruct i as [|[[p|p|]|[p|p|]|]]; reflexivity.
Qed.

Lemma Reqb_true a b : Reqb a b = true <-> a = b.
Proof. unfold Reqb. destruct (Req_dec_T a b); split; congruence. Qed.

Lemma Rleb_true a b : Rleb a b = true <-> (a <= b)%R.
Proof. unfold Rleb. destruct (Rle_dec a b); split; congruence. Qed.

(** C2: [v == s] and [v <= s] hold exactly when all three components
    satisfy the relation: with the component type's own [==] and [<=] for
    every component type, and as the mathematical relations in exact
    arithmetic.  On doubles [Vec3(2,2,2) <= 2] is true and
    [Vec3(2,3,2) <= 2] is false although two of its components are [<= 2]. *)
Theorem scalar_comparison_all_components :
  (forall (T : Type) (S : Scalar T) (v : Vec3.t T) (s : T),
      (Vec3.eq_scalar v s = true <->
         eqb (Vec3.x v) s = true /\ eqb (Vec3.y v) s = true
         /\ eqb (Vec3.z v) s = true)
      /\ (Vec3.le_scalar v s = true <->
            leb (Vec3.x v) s = true /\ leb (Vec3.y v) s = true
            /\ leb (Vec3.z v) s = true))
  /\ (forall (v : Vec3.t R) (s : R),
         (Vec3.eq_scalar v s = true <->
            Vec3.x v = s /\ Vec3.y v = s /\ Vec3.z v = s)
         /\ (Vec3.le_scalar v s = true <->
               (Vec3.x v <= s)%R /\ (Vec3.y v <= s)%R /\ (Vec3.z v <= s)%R))
  /\ Vec3.le_scalar (vec3 2 2 2) (of_Z 2) = true
  /\ Vec3.le_scalar (vec3 2 3 2) (of_Z 2) = false
  /\ leb (Vec3.x (vec3 2 3 2)) (of_Z 2) = true
  /\ leb (Vec3.z (vec3 2 3 2)) (of_Z 2) = true.
Proof.
  split; [|split; [|repeat split]].
  - intros T S v s.
    unfold Vec3.eq_scalar, Vec3.le_scalar.
    rewrite !andb_true_iff. tauto.
  - intros v s.
    unfold Vec3.eq_scalar, Vec3.le_scalar; simpl.
    rewrite !andb_true_iff, !Reqb_true, !Rleb_true. tauto.
Qed.

(** C3: with [drand48] read from a stream of doubles in [0,1), a call that
    starts at position [k] returns the first candidate
    [2*(r1,r2,r3) - (1,1,1)] of consecutive triples whose squared length is
    [< 1], having consumed exactly the triples up to it; whatever it returns
    has squared length [< 1]; and as long as every candidate so far was
    rejected the loop is still running, whatever the number of passes. *)
Theorem random_in_unit_sphere_first_accepted
  (rs : nat -> double)
  (rs_range : forall k, RandomFacts.in_unit_interval (rs k) = true) :
  (forall k j,
      (forall i, (i < j)%nat ->
                 RandomFacts.accepted (Random.candidate rs k i) = false) ->
      RandomFacts.accepted (Random.candidate rs k j) = true ->
      forall fuel, (j < fuel)%nat ->
        Random.random_in_unit_sphere rs fuel k
        = Some (Random.candidate rs k j, (k + 3 * S j)%nat))
  /\ (forall fuel k p k',
         Random.random_in_unit_sphere rs fuel k = Some (p, k') ->
         ltb (Vec3.squared_length p) (of_Z 1) = true)
  /\ (forall n k,
         (forall i, (i < n)%nat ->
                    RandomFacts.accepted (Random.candidate rs k i) = false) ->
         Random.random_in_unit_sphere rs n k = None).
Proof.
  assert (Hnan : forall k, is_nan (rs k) = false)
    by (intros k; apply RandomFacts.in_unit_interval_not_nan, rs_range).
  split; [|split].
  - intros k j. apply RandomFacts.first_accepted_returned, Hnan.
  - intros fuel k p k' Hret.
    exact (RandomFacts.returned_is_accepted rs Hnan fuel k p k' Hret).
  - intros n k. apply RandomFacts.still_looping, Hnan.
Qed.

(** A stream whose first triple is rejected and whose second is accepted. *)
Definition rs_sample (k : nat) : double :=
  if (k <? 3)%nat then of_Z 0 else S754_finite false 4503599627370496 (-53).

Lemma random_in_unit_sphere_first_accepted_witness :
  Random.random_in_unit_sphere rs_sample 2 0 = Some (vec3 0 0 0, 6%nat)
  /\ Random.random_in_unit_sphere rs_sample 1 0 = None.
Proof.
  assert (Hr : forall k, RandomFacts.in_unit_interval (rs_sample k) = true)
    by (intros k; unfold rs_sample; destruct (k <? 3)%nat; reflexivity).
  assert (Hrej : forall i, (i < 1)%nat ->
            RandomFacts.accepted (Random.candidate rs_sample 0 i) = false)
    by (intros [|i] Hi; [reflexivity | lia]).
  destruct (random_in_unit_sphere_first_accepted rs_sample Hr) as [H1 [_ H3]].
  split.
  - apply (H1 0%nat 1%nat Hrej); [reflexivity | lia].
  - apply (H3 1%nat 0%nat Hrej).
Defined.



(** C5: [cross(l,r)] is
    [(l.y*r.z - l.z*r.y, -(l.x*r.z - l.z*r.x), l.x*r.y - l.y*r.x)] for every
    component type.  The negation of the middle term is observable on
    doubles: for [u = (1,1,1)] it yields [-0.0] where the rearranged
    [l.z*r.x - l.x*r.z] yields [+0.0]. *)
Theorem cross_components :
  (forall (T : Type) (S : Scalar T) (l r : Vec3.t T),
      Vec3.cross l r
      = Vec3.mk
          (sub (mul (Vec3.y l) (Vec3.z r)) (mul (Vec3.z l) (Vec3.y r)))
          (opp (sub (mul (Vec3.x l) (Vec3.z r)) (mul (Vec3.z l) (Vec3.x r))))
          (sub (mul (Vec3.x l) (Vec3.y r)) (mul (Vec3.y l) (Vec3.x r))))
  /\ (forall l r : Vec3.t R,
         Vec3.cross l r
         = Vec3.mk (Vec3.y l * Vec3.z r - Vec3.z l * Vec3.y r)%R
                   (- (Vec3.x l * Vec3.z r - Vec3.z l * Vec3.x r))%R
                   (Vec3.x l * Vec3.y r - Vec3.y l * Vec3.x r)%R)
  /\ Vec3.cross (vec3 1 1 1) (vec3 1 1 1) = Vec3.mk pzero nzero pzero
  /\ sub (mul (Vec3.z (vec3 1 1 1)) (Vec3.x (vec3 1 1 1)))
         (mul (Vec3.x (vec3 1 1 1)) (Vec3.z (vec3 1 1 1))) = pzero.
Proof.
  repeat split.
Qed.

(** C6: [l * r] multiplies component by component and [dot(l,r)] sums those
    products, for every component type; on doubles
    [Vec3(1,2,3) * Vec3(2,2,2) = Vec3(2,4,6)] and
    [dot(Vec3(1,2,3), Vec3(2,2,2)) = 12]. *)
Theorem hadamard_product_and_dot :
  (forall (T : Type) (S : Scalar T) (l r : Vec3.t T),
      Vec3.hadamard l r
      = Vec3.mk (mul (Vec3.x l) (Vec3.x r)) (mul (Vec3.y l) (Vec3.y r))
                (mul (Vec3.z l) (Vec3.z r))
      /\ Vec3.dot l r
         = add (add (mul (Vec3.x l) (Vec3.x r)) (mul (Vec3.y l) (Vec3.y r)))
               (mul (Vec3.z l) (Vec3.z r))
      /\ Vec3.dot l r
         = add (add (Vec3.x (Vec3.hadamard l r)) (Vec3.y (Vec3.hadamard l r)))
               (Vec3.z (Vec3.hadamard l r)))
  /\ Vec3.hadamard (vec3 1 2 3) (vec3 2 2 2) = vec3 2 4 6
  /\ Vec3.dot (vec3 1 2 3) (vec3 2 2 2) = of_Z 12.
Proof.
  repeat split.
Qed.

(** C7: a ray evaluated at [t] is [A + t*B], for every component type as the
    operators compute it and, in exact arithmetic, for every real [t] of
    either sign.  On doubles the ray from [(0,0,0)] along [(1,0,0)] is at
    [(0,0,0)], [(5,0,0)] and [(-2,0,0)] for [t = 0], [5] and [-2]. *)
Theorem ray_at_parameter :
  (forall (T : Type) (S : Scalar T) (r : Ray.t T) (t0 : T),
      Ray.at_ r t0
      = Vec3.plus (Ray.origin r) (Vec3.scale_l t0 (Ray.direction r)))
  /\ (forall (r : Ray.t R) (t0 : R),
         Ray.at_ r t0
         = Vec3.mk (Vec3.x (Ray.A r) + t0 * Vec3.x (Ray.B r))%R
                   (Vec3.y (Ray.A r) + t0 * Vec3.y (Ray.B r))%R
                   (Vec3.z (Ray.A r) + t0 * Vec3.z (Ray.B r))%R)
  /\ Ray.at_ (Ray.mk (vec3 0 0 0) (vec3 1 0 0)) (of_Z 0) = vec3 0 0 0
  /\ Ray.at_ (Ray.mk (vec3 0 0 0) (vec3 1 0 0)) (of_Z 5) = vec3 5 0 0
  /\ Ray.at_ (Ray.mk (vec3 0 0 0) (vec3 1 0 0)) (of_Z (-2)) = vec3 (-2) 0 0.
Proof.
  split; [|split; [|repeat split]].
  - reflexivity.
  - intros r t0. unfold Ray.at_, Vec3.plus, Vec3.scale_l. simpl.
    f_equal; ring.
Qed.

Definition nan_or_inf (a : double) : bool := is_nan a || is_inf a.

(** Dividing by a computed length of zero leaves only NaN and infinities. *)
Lemma div_by_zero_nan_or_inf (a lng : double) :
  is_zero lng = true -> nan_or_inf (div a lng) = true.
Proof.
  destruct lng as [s|s| |s m e]; simpl; intros Hz; try discriminate.
  destruct a; reflexivity.
Qed.

(** C8: normalising a zero vector divides every component by a length of
    zero and yields NaN in every component, for [Vec3] and, with [pow]
    returning [+0] at a zero base and exponent 2, for [Vec2]; whenever the
    computed length is zero every component of the result is NaN or
    infinite (a vector whose squares underflow gives an infinity).  The
    functions are total: no case fails. *)
Theorem normalize_zero_vector
  (pow : double -> double -> double)
  (pow_zero : forall s, pow (S754_zero s) (of_Z 2) = pzero) :
  (forall sx sy sz,
      Vec3.normalized (Vec3.mk (S754_zero sx) (S754_zero sy) (S754_zero sz))
      = Vec3.splat nan
      /\ Vec3.normalize (Vec3.mk (S754_zero sx) (S754_zero sy) (S754_zero sz))
         = Vec3.splat nan)
  /\ Vec3.normalized (Vec3.zero (T := double)) = Vec3.splat nan
  /\ Vec3.normalize (Vec3.zero (T := double)) = Vec3.splat nan
  /\ (forall sx sy,
         Vec2.normalized pow (Vec2.mk (S754_zero sx) (S754_zero sy))
         = Vec2.mk nan nan
         /\ Vec2.normalize pow (Vec2.mk (S754_zero sx) (S754_zero sy))
            = Vec2.mk nan nan)
  /\ Vec2.normalized pow (Vec2.zero (T := double)) = Vec2.mk nan nan
  /\ Vec2.normalize pow (Vec2.zero (T := double)) = Vec2.mk nan nan
  /\ (forall v : Vec3.t double,
         is_zero (Vec3.length v) = true ->
         nan_or_inf (Vec3.x (Vec3.normalized v)) = true
         /\ nan_or_inf (Vec3.y (Vec3.normalized v)) = true
         /\ nan_or_inf (Vec3.z (Vec3.normalized v)) = true
         /\ Vec3.normalize v = Vec3.normalized v)
  /\ Vec3.normalized
       (Vec3.mk (S754_finite false 4503599627370496 (-652)) pzero pzero)
     = Vec3.mk (S754_infinity false) nan nan.
Proof.
  assert (H2 : forall sx sy,
             Vec2.length pow (Vec2.mk (S754_zero sx) (S754_zero sy)) = pzero).
  { intros sx sy. unfold Vec2.length. simpl Vec2.x. simpl Vec2.y.
    change (@lit double binary64 2) with (of_Z 2).
    rewrite !pow_zero. reflexivity. }
  assert (H0 : Vec2.zero (T := double)
               = Vec2.mk (S754_zero false) (S754_zero false))
    by reflexivity.
  split. { intros sx sy sz. split; destruct sx, sy, sz; reflexivity. }
  split. { reflexivity. }
  split. { reflexivity. }
  split.
  { intros sx sy. split.
    - unfold Vec2.normalized. rewrite H2. reflexivity.
    - unfold Vec2.normalize. rewrite H2. reflexivity. }
  split. { rewrite H0. unfold Vec2.normalized. rewrite H2. reflexivity. }
  split. { rewrite H0. unfold Vec2.normalize. rewrite H2. reflexivity. }
  split.
  { intros v Hz. repeat split;
      try (apply div_by_zero_nan_or_inf; exact Hz). }
  reflexivity.
Qed.

(** [pow(x, 2)] computed as the correctly rounded square. *)
Definition pow_square (a e : double) : double := mul a a.

Lemma normalize_zero_vector_witness :
  Vec3.normalized (vec3 0 0 0) = Vec3.splat nan
  /\ Vec2.normalized pow_square (Vec2.mk pzero nzero) = Vec2.mk nan nan
  /\ Vec2.normalize pow_square (Vec2.mk pzero nzero) = Vec2.mk nan nan.
Proof.
  assert (Hp : forall s, pow_square (S754_zero s) (of_Z 2) = pzero)
    by (intros s; destruct s; reflexivity).
  destruct (normalize_zero_vector pow_square Hp)
    as [H3 [_ [_ [H2 _]]]].
  split; [exact (proj1 (H3 false false false)) | exact (H2 false true)].
Defined.

(** C9: a default-constructed ray has origin and direction [(0,0,0)], the
    value [Vec3()] gives every member, for every component type; on doubles
    each component is [+0.0]. *)
Theorem default_ray_is_zero :
  (forall (T : Type) (S : Scalar T),
      Ray.origin (Ray.default (T := T)) = Vec3.mk (lit 0) (lit 0) (lit 0)
      /\ Ray.direction (Ray.default (T := T))
         = Vec3.mk (lit 0) (lit 0) (lit 0))
  /\ Ray.origin (Ray.default (T := double)) = Vec3.mk pzero pzero pzero
  /\ Ray.direction (Ray.default (T := double)) = Vec3.mk pzero pzero pzero.
Proof.
  repeat split.
Qed.

(** C10: [dot(v,v)] and [v.squared_length()] are the same value
    [x*x + y*y + z*z] for every vector of every component type. *)
Theorem dot_self_is_squared_length :
  forall (T : Type) (S : Scalar T) (v : Vec3.t T),
    Vec3.dot v v = Vec3.squared_length v
    /\ Vec3.squared_length v
       = add (add (mul (Vec3.x v) (Vec3.x v)) (mul (Vec3.y v) (Vec3.y v)))
             (mul (Vec3.z v) (Vec3.z v)).
Proof.
  intros T S v. split; reflexivity.
Qed.


(** * Further properties of the header *)

(** ** Facts on binary64 values *)

Module B64Algebra.
Import B64 B64Facts.

Lemma mul_comm (a b : double) : mul a b = mul b a.
Proof.
  change (SFmul prec emax a b = SFmul prec emax b a).
  destruct a as [sa|sa| |sa ma ea], b as [sb|sb| |sb mb eb];
    unfold SFmul; try reflexivity; rewrite (xorb_comm sa sb);
    try reflexivity.
  rewrite (Pos.mul_comm ma mb), (Z.add_comm ea eb). reflexivity.
Qed.

Lemma add_comm (a b : double) : add a b = add b a.
Proof.
  change (SFadd prec emax a b = SFadd prec emax b a).
  destruct a as [sa|sa| |sa ma ea], b as [sb|sb| |sb mb eb];
    unfold SFadd; try reflexivity;
    try (destruct sa, sb; reflexivity).
  rewrite (Z.min_comm ea eb), Z.add_comm. reflexivity.
Qed.

Lemma opp_involutive (a : double) : opp (opp a) = a.
Proof.
  destruct a as [s|s| |s m e]; simpl; try rewrite negb_involutive;
    reflexivity.
Qed.

Lemma SFcompare_refl a : is_nan a = false -> SFcompare a a = Some Eq.
Proof.
  destruct a as [s|s| |s m e]; simpl; intros Ha; try discriminate;
    try reflexivity; try (destruct s; reflexivity).
  destruct s; rewrite Z.compare_refl, Pos.compare_cont_refl; reflexivity.
Qed.

(** [a == a] fails exactly on NaN. *)
Lemma eqb_self (a : double) : eqb a a = negb (is_nan a).
Proof.
  change (SFeqb a a = negb (is_nan a)). unfold SFeqb.
  destruct (is_nan a) eqn:Ha.
  - destruct a; try discriminate. reflexivity.
  - rewrite (SFcompare_refl a Ha). reflexivity.
Qed.

Lemma eqb_sym (a b : double) : eqb a b = eqb b a.
Proof.
  change (SFeqb a b = SFeqb b a). unfold SFeqb.
  rewrite (SFcompare_antisym b a).
  destruct (SFcompare b a) as [[]|]; reflexivity.
Qed.

Lemma eqb_leb (a b : double) : eqb a b = true -> leb a b = true.
Proof.
  change (SFeqb a b = true -> SFleb a b = true). unfold SFeqb, SFleb.
  destruct (SFcompare a b) as [[]|]; congruence.
Qed.

Lemma eqb_nan_r (a b : double) : is_nan b = true -> eqb a b = false.
Proof.
  change (is_nan b = true -> SFeqb a b = false).
  destruct b; try discriminate. destruct a; reflexivity.
Qed.

Lemma leb_nan_r (a b : double) : is_nan b = true -> leb a b = false.
Proof.
  change (is_nan b = true -> SFleb a b = false).
  destruct b; try discriminate. destruct a; reflexivity.
Qed.

Lemma eqb_nan_l (a b : double) : is_nan a = true -> eqb a b = false.
Proof.
  change (is_nan a = true -> SFeqb a b = false).
  destruct a; try discriminate. reflexivity.
Qed.

Lemma leb_nan_l (a b : double) : is_nan a = true -> leb a b = false.
Proof.
  change (is_nan a = true -> SFleb a b = false).
  destruct a; try discriminate. reflexivity.
Qed.

(** Finite: a zero or a finite number. *)
Definition is_finite (a : double) : bool :=
  match a with S754_zero _ | S754_finite _ _ _ => true | _ => false end.

Lemma sub_diag (a : double) : is_finite a = true -> sub a a = pzero.
Proof.
  change (is_finite a = true -> SFsub prec emax a a = pzero).
  destruct a as [s|s| |s m e]; simpl; intros Ha; try discriminate.
  - destruct s; reflexivity.
  - rewrite Z.sub_diag. reflexivity.
Qed.

Lemma sub_diag_not_finite (a : double) :
  is_finite a = false -> sub a a = nan.
Proof.
  change (is_finite a = false -> SFsub prec emax a a = nan).
  destruct a as [s|s| |s m e]; simpl; intros Ha; try discriminate.
  - destruct s; reflexivity.
  - reflexivity.
Qed.

Lemma mul_nan_iff_square (a : double) :
  is_nan (mul a a) = is_nan a.
Proof.
  destruct (is_nan a) eqn:Ha.
  - destruct a; try discriminate. reflexivity.
  - apply nonneg_not_nan, square_nonneg, Ha.
Qed.

Lemma add_nan_l (a b : double) : is_nan a = true -> is_nan (add a b) = true.
Proof. destruct a; try discriminate. reflexivity. Qed.

Lemma add_nan_r (a b : double) : is_nan b = true -> is_nan (add a b) = true.
Proof. destruct b; try discriminate. destruct a; reflexivity. Qed.

Lemma sqrt_nonneg (a : double) : nonneg a = true -> nonneg (sqrt a) = true.
Proof.
  change (nonneg a = true -> nonneg (SFsqrt prec emax a) = true).
  destruct a as [s|s| |s m e]; simpl; intros Ha; try discriminate; auto.
  - destruct s; [discriminate | reflexivity].
  - destruct s; [discriminate|].
    destruct (SFsqrt_core_binary prec emax (Z.pos m) e) as [[mz ez] lz] eqn:Hc.
    apply signed_nonneg, binary_round_aux_signed.
    unfold SFsqrt_core_binary in Hc.
    destruct (Z.sqrtrem _) as [q r] eqn:Hq in Hc.
    injection Hc as <- _ _.
    change q with (fst (q, r)). rewrite <- Hq, Z.sqrtrem_sqrt.
    apply Z.sqrt_nonneg.
Qed.

Lemma sqrt_nan (a : double) : is_nan a = true -> is_nan (sqrt a) = true.
Proof. destruct a; try discriminate. reflexivity. Qed.

End B64Algebra.

(** ** Vectors of doubles *)

(** X1: on doubles [dot(l,r)] and [dot(r,l)] are the same IEEE value for
    [Vec3] and for [Vec2]: the same number, signed zero or infinity, or
    both NaN (the sign and payload of a NaN are not part of the model). *)
Theorem dot_commutative_binary64 :
  (forall l r : Vec3.t double, Vec3.dot l r = Vec3.dot r l)
  /\ (forall v u : Vec2.t double, Vec2.dot v u = Vec2.dot u v).
Proof.
  split.
  - intros l r. unfold Vec3.dot.
    rewrite (B64Algebra.mul_comm (Vec3.x l)), (B64Algebra.mul_comm (Vec3.y l)),
      (B64Algebra.mul_comm (Vec3.z l)). reflexivity.
  - intros v u. unfold Vec2.dot.
    rewrite (B64Algebra.mul_comm (Vec2.x v)), (B64Algebra.mul_comm (Vec2.y v)).
    reflexivity.
Qed.

(** X2: on doubles the componentwise product and the sums of [Vec3] and
    [Vec2] give the same IEEE values with the operands swapped: the same
    numbers, signed zeros or infinities, and NaN in the same components (the
    sign and payload of a NaN are not part of the model). *)
Theorem hadamard_plus_commutative_binary64 :
  (forall l r : Vec3.t double, Vec3.hadamard l r = Vec3.hadamard r l)
  /\ (forall l r : Vec3.t double, Vec3.plus l r = Vec3.plus r l)
  /\ (forall v u : Vec2.t double, Vec2.plus v u = Vec2.plus u v).
Proof.
  split; [|split].
  - intros l r. unfold Vec3.hadamard.
    rewrite (B64Algebra.mul_comm (Vec3.x l)), (B64Algebra.mul_comm (Vec3.y l)),
      (B64Algebra.mul_comm (Vec3.z l)). reflexivity.
  - intros l r. unfold Vec3.plus.
    rewrite (B64Algebra.add_comm (Vec3.x l)), (B64Algebra.add_comm (Vec3.y l)),
      (B64Algebra.add_comm (Vec3.z l)). reflexivity.
  - intros v u. unfold Vec2.plus.
    rewrite (B64Algebra.add_comm (Vec2.x v)), (B64Algebra.add_comm (Vec2.y v)).
    reflexivity.
Qed.

(** X3: on doubles, scaling by a scalar from the left, from the right, and
    multiplying componentwise by the broadcast vector on either side all
    give the same vector. *)
Theorem scaling_is_broadcast_product_binary64 :
  forall (l : double) (v : Vec3.t double),
    Vec3.scale_l l v = Vec3.scale_r v l
    /\ Vec3.hadamard v (Vec3.splat l) = Vec3.scale_r v l
    /\ Vec3.hadamard (Vec3.splat l) v = Vec3.scale_l l v.
Proof.
  intros l v. split; [reflexivity|]. split; [reflexivity|].
  unfold Vec3.hadamard, Vec3.scale_l, Vec3.splat, Vec3.x, Vec3.y, Vec3.z.
  rewrite !(B64Algebra.mul_comm l). reflexivity.
Qed.


(** The difference of a double with itself. *)
Definition self_difference (a : double) : double :=
  if B64Algebra.is_finite a then pzero else nan.

(** X5: on doubles [v - v] has [+0.0] in every component that is finite
    and NaN in every component that is infinite or NaN. *)
Theorem minus_self_binary64 :
  forall v : Vec3.t double,
    Vec3.minus v v
    = Vec3.mk (self_difference (Vec3.x v)) (self_difference (Vec3.y v))
              (self_difference (Vec3.z v)).
Proof.
  assert (Hd : forall a : double, sub a a = self_difference a).
  { intros a. unfold self_difference.
    destruct (B64Algebra.is_finite a) eqn:Ha.
    - apply B64Algebra.sub_diag, Ha.
    - apply B64Algebra.sub_diag_not_finite, Ha. }
  intros v. unfold Vec3.minus. rewrite !Hd. reflexivity.
Qed.

Lemma squared_length_nan (v : Vec3.t double) :
  is_nan (Vec3.x v) || is_nan (Vec3.y v) || is_nan (Vec3.z v) = true ->
  is_nan (Vec3.squared_length v) = true.
Proof.
  intros Hn. unfold Vec3.squared_length.
  apply orb_true_iff in Hn. destruct Hn as [Hn|Hz].
  - apply orb_true_iff in Hn. destruct Hn as [Hx|Hy].
    + apply B64Algebra.add_nan_l, B64Algebra.add_nan_l.
      rewrite B64Algebra.mul_nan_iff_square. exact Hx.
    + apply B64Algebra.add_nan_l, B64Algebra.add_nan_r.
      rewrite B64Algebra.mul_nan_iff_square. exact Hy.
  - apply B64Algebra.add_nan_r.
    rewrite B64Algebra.mul_nan_iff_square. exact Hz.
Qed.

(** X6: on doubles [squared_length] and [length] are NaN exactly when some
    component is NaN, and otherwise are never negative (an overflow gives
    [+inf]). *)
Theorem squared_length_nan_iff_component_nan :
  forall v : Vec3.t double,
    is_nan (Vec3.squared_length v)
    = is_nan (Vec3.x v) || is_nan (Vec3.y v) || is_nan (Vec3.z v)
    /\ is_nan (Vec3.length v)
       = is_nan (Vec3.x v) || is_nan (Vec3.y v) || is_nan (Vec3.z v)
    /\ nonneg (Vec3.squared_length v)
       = negb (is_nan (Vec3.x v) || is_nan (Vec3.y v) || is_nan (Vec3.z v))
    /\ nonneg (Vec3.length v)
       = negb (is_nan (Vec3.x v) || is_nan (Vec3.y v) || is_nan (Vec3.z v)).
Proof.
  intros v.
  assert (Hl : Vec3.length v = sqrt (Vec3.squared_length v)) by reflexivity.
  destruct (is_nan (Vec3.x v) || is_nan (Vec3.y v) || is_nan (Vec3.z v))
    eqn:Hn.
  - pose proof (squared_length_nan v Hn) as Hs.
    assert (Hq : is_nan (Vec3.length v) = true)
      by (rewrite Hl; apply B64Algebra.sqrt_nan, Hs).
    rewrite Hs, Hq. repeat split.
    + destruct (Vec3.squared_length v); try discriminate. reflexivity.
    + destruct (Vec3.length v); try discriminate. reflexivity.
  - apply orb_false_iff in Hn. destruct Hn as [Hn Hz].
    apply orb_false_iff in Hn. destruct Hn as [Hx Hy].
    pose proof (RandomFacts.squared_length_nonneg v Hx Hy Hz) as Hs.
    pose proof (B64Algebra.sqrt_nonneg _ Hs) as Hq. rewrite <- Hl in Hq.
    rewrite Hs, Hq, (B64Facts.nonneg_not_nan _ Hs),
      (B64Facts.nonneg_not_nan _ Hq). repeat split.
Qed.

(** X7: on doubles [Vec2::operator==] is symmetric, and a vector equals
    itself exactly when none of its components is NaN. *)
Theorem vec2_eq_reflexive_iff_no_nan :
  forall v u : Vec2.t double,
    Vec2.eq v u = Vec2.eq u v
    /\ Vec2.eq v v = negb (is_nan (Vec2.x v) || is_nan (Vec2.y v)).
Proof.
  intros v u. unfold Vec2.eq. split.
  - rewrite (B64Algebra.eqb_sym (Vec2.x v)), (B64Algebra.eqb_sym (Vec2.y v)).
    reflexivity.
  - rewrite !B64Algebra.eqb_self, negb_orb. reflexivity.
Qed.

Lemma leb_self (a : double) : leb a a = negb (is_nan a).
Proof.
  change (SFleb a a = negb (is_nan a)). unfold SFleb.
  destruct (is_nan a) eqn:Ha.
  - destruct a; try discriminate. reflexivity.
  - rewrite (B64Algebra.SFcompare_refl a Ha). reflexivity.
Qed.

(** X8: on doubles a vector that [==] a scalar is also [<=] that scalar,
    and a vector of three copies of [s] is [== s] and [<= s] exactly when
    [s] is not NaN. *)
Theorem eq_scalar_implies_le_scalar_binary64 :
  (forall (v : Vec3.t double) (s : double),
      Vec3.eq_scalar v s = true -> Vec3.le_scalar v s = true)
  /\ (forall s : double,
         Vec3.eq_scalar (Vec3.splat s) s = negb (is_nan s)
         /\ Vec3.le_scalar (Vec3.splat s) s = negb (is_nan s)).
Proof.
  split.
  - intros v s. unfold Vec3.eq_scalar, Vec3.le_scalar.
    rewrite !andb_true_iff. intros [[Hx Hy] Hz].
    repeat split; apply B64Algebra.eqb_leb; assumption.
  - intros s. unfold Vec3.eq_scalar, Vec3.le_scalar, Vec3.splat.
    simpl Vec3.x; simpl Vec3.y; simpl Vec3.z.
    rewrite B64Algebra.eqb_self, leb_self.
    destruct (is_nan s); split; reflexivity.
Qed.

Lemma eq_scalar_implies_le_scalar_binary64_witness :
  Vec3.le_scalar (vec3 2 2 2) (of_Z 2) = true.
Proof.
  apply (proj1 eq_scalar_implies_le_scalar_binary64 (vec3 2 2 2) (of_Z 2)).
  reflexivity.
Defined.

(** X9: on doubles both scalar comparisons are false as soon as the scalar
    or any component of the vector is NaN. *)
Theorem scalar_comparison_false_on_nan :
  forall (v : Vec3.t double) (s : double),
    is_nan s || is_nan (Vec3.x v) || is_nan (Vec3.y v) || is_nan (Vec3.z v)
    = true ->
    Vec3.eq_scalar v s = false /\ Vec3.le_scalar v s = false.
Proof.
  intros v s Hn. unfold Vec3.eq_scalar, Vec3.le_scalar.
  rewrite !orb_true_iff in Hn. destruct Hn as [[[Hs|Hx]|Hy]|Hz].
  - rewrite !(B64Algebra.eqb_nan_r _ s Hs), !(B64Algebra.leb_nan_r _ s Hs).
    split; reflexivity.
  - rewrite (B64Algebra.eqb_nan_l _ s Hx), (B64Algebra.leb_nan_l _ s Hx).
    split; reflexivity.
  - rewrite (B64Algebra.eqb_nan_l _ s Hy), (B64Algebra.leb_nan_l _ s Hy),
      !andb_false_r. split; reflexivity.
  - rewrite (B64Algebra.eqb_nan_l _ s Hz), (B64Algebra.leb_nan_l _ s Hz),
      !andb_false_r. split; reflexivity.
Qed.

Lemma scalar_comparison_false_on_nan_witness :
  Vec3.eq_scalar (Vec3.mk (of_Z 1) nan (of_Z 1)) (of_Z 1) = false
  /\ Vec3.le_scalar (Vec3.mk (of_Z 1) nan (of_Z 1)) (of_Z 1) = false.
Proof.
  apply (scalar_comparison_false_on_nan
           (Vec3.mk (of_Z 1) nan (of_Z 1)) (of_Z 1)).
  reflexivity.
Defined.

Lemma mul_zero_r_is_zero (b : double) :
  B64Algebra.is_finite b = true -> is_zero (mul b (of_Z 0)) = true.
Proof. destruct b; try discriminate; reflexivity. Qed.

Lemma mul_zero_r_inf (b : double) :
  is_inf b = true -> is_nan (mul b (of_Z 0)) = true.
Proof. destruct b; try discriminate; reflexivity. Qed.

Lemma add_zero_r_eqb (a z0 : double) :
  is_nan a = false -> is_zero z0 = true -> eqb (add a z0) a = true.
Proof.
  intros Ha Hz. destruct z0 as [sz|sz| |sz mz ez]; try discriminate.
  destruct a as [sa|sa| |sa ma ea]; try discriminate.
  - destruct sa, sz; reflexivity.
  - destruct sa; reflexivity.
  - change (add (S754_finite sa ma ea) (S754_zero sz))
      with (S754_finite sa ma ea).
    rewrite B64Algebra.eqb_self. reflexivity.
Qed.

Lemma add_zero_r_finite (a z0 : double) :
  is_zero a = false -> is_zero z0 = true -> add a z0 = a.
Proof.
  intros Ha Hz. destruct z0 as [sz|sz| |sz mz ez]; try discriminate.
  destruct a as [sa|sa| |sa ma ea]; try discriminate; reflexivity.
Qed.

(** The components of a vector of doubles satisfy a test. *)
Definition all3 (f : double -> bool) (v : Vec3.t double) : bool :=
  f (Vec3.x v) && f (Vec3.y v) && f (Vec3.z v).

(** X10: on doubles, a ray with a finite direction evaluated at [t = 0]
    returns its origin: every component compares [==] to the origin's when
    the origin has no NaN, and is identical to it when the origin has no
    zero component (a zero may change sign).  An infinite direction
    component turns that component of the point into NaN. *)
Theorem ray_at_zero_binary64 :
  forall r : Ray.t double,
    (all3 B64Algebra.is_finite (Ray.direction r) = true ->
     all3 (fun a => negb (is_nan a)) (Ray.origin r) = true ->
     eqb (Vec3.x (Ray.at_ r (of_Z 0))) (Vec3.x (Ray.origin r)) = true
     /\ eqb (Vec3.y (Ray.at_ r (of_Z 0))) (Vec3.y (Ray.origin r)) = true
     /\ eqb (Vec3.z (Ray.at_ r (of_Z 0))) (Vec3.z (Ray.origin r)) = true)
    /\ (all3 B64Algebra.is_finite (Ray.direction r) = true ->
        all3 (fun a => negb (is_zero a)) (Ray.origin r) = true ->
        Ray.at_ r (of_Z 0) = Ray.origin r)
    /\ (is_inf (Vec3.x (Ray.direction r)) = true ->
        is_nan (Vec3.x (Ray.at_ r (of_Z 0))) = true).
Proof.
  intros [[ax ay az] [bx by_ bz]]. unfold all3, Ray.direction, Ray.origin.
  simpl Ray.A; simpl Ray.B; simpl Vec3.x; simpl Vec3.y; simpl Vec3.z.
  split; [|split].
  - rewrite !andb_true_iff, !negb_true_iff.
    intros [[Hbx Hby] Hbz] [[Hax Hay] Haz].
    repeat split; apply add_zero_r_eqb; try assumption;
      apply mul_zero_r_is_zero; assumption.
  - rewrite !andb_true_iff, !negb_true_iff.
    intros [[Hbx Hby] Hbz] [[Hax Hay] Haz].
    unfold Ray.at_, Vec3.plus, Vec3.scale_l.
    simpl Ray.A; simpl Ray.B; simpl Vec3.x; simpl Vec3.y; simpl Vec3.z.
    rewrite (add_zero_r_finite ax), (add_zero_r_finite ay),
      (add_zero_r_finite az); try assumption; try reflexivity;
      apply mul_zero_r_is_zero; assumption.
  - intros Hbx. apply B64Algebra.add_nan_r, mul_zero_r_inf, Hbx.
Qed.

Lemma ray_at_zero_binary64_witness :
  eqb (Vec3.x (Ray.at_ (Ray.mk (vec3 0 7 (-1)) (vec3 (-1) 2 3)) (of_Z 0)))
      (of_Z 0) = true
  /\ Ray.at_ (Ray.mk (vec3 4 7 (-1)) (vec3 (-1) 2 3)) (of_Z 0)
     = vec3 4 7 (-1)
  /\ is_nan (Vec3.x (Ray.at_ (Ray.mk (vec3 4 7 (-1))
                                (Vec3.mk (S754_infinity false) pzero pzero))
                       (of_Z 0))) = true.
Proof.
  split; [|split].
  - apply (proj1 (ray_at_zero_binary64
                    (Ray.mk (vec3 0 7 (-1)) (vec3 (-1) 2 3))));
      reflexivity.
  - apply (proj1 (proj2 (ray_at_zero_binary64
                    (Ray.mk (vec3 4 7 (-1)) (vec3 (-1) 2 3)))));
      reflexivity.
  - apply (proj2 (proj2 (ray_at_zero_binary64
                    (Ray.mk (vec3 4 7 (-1))
                       (Vec3.mk (S754_infinity false) pzero pzero)))));
      reflexivity.
Defined.

(** ** In-place operators and the rejection loop *)

(** X11: for every component type, the in-place operations leave the
    object equal to what the value-returning operation computes:
    [normalize] against [normalized] for [Vec3] and [Vec2], [+=] against
    [+], [/=] by a scalar against [/], and [/=] by the broadcast vector
    against [/] by the scalar. *)
Theorem in_place_agrees_with_value :
  forall (T : Type) (S : Scalar T),
    (forall v : Vec3.t T, Vec3.normalize v = Vec3.normalized v)
    /\ (forall (pow : T -> T -> T) (v : Vec2.t T),
           Vec2.normalize pow v = Vec2.normalized pow v)
    /\ (forall l r : Vec3.t T, Vec3.plus_assign l r = Vec3.plus l r)
    /\ (forall (l : Vec3.t T) (r : T),
           Vec3.div_assign_scalar l r = Vec3.div_scalar l r)
    /\ (forall (l : Vec3.t T) (r : T),
           Vec3.div_assign l (Vec3.splat r) = Vec3.div_scalar l r).
Proof.
  intros T S. repeat split.
Qed.

Section GenericSampler.
Context {T : Type} `{Scalar T}.
Variable rs : nat -> T.

Lemma body_is_candidate k :
  Random.body rs k = (Random.candidate rs k 0, (k + 3)%nat).
Proof.
  unfold Random.body, Random.candidate, Random.drand48.
  replace (k + 3 * 0)%nat with k by lia.
  replace (k + 3)%nat with (S (S (S k))) by lia.
  reflexivity.
Qed.

Lemma candidate_next k i :
  Random.candidate rs (k + 3) i = Random.candidate rs k (S i).
Proof.
  unfold Random.candidate.
  replace (k + 3 + 3 * i)%nat with (k + 3 * S i)%nat by lia.
  reflexivity.
Qed.

Lemma returned_candidate fuel :
  forall k p k',
    Random.random_in_unit_sphere rs fuel k = Some (p, k') ->
    exists j,
      (j < fuel)%nat
      /\ p = Random.candidate rs k j
      /\ k' = (k + 3 * S j)%nat
      /\ geb (Vec3.squared_length p) (lit 1) = false
      /\ forall i, (i < j)%nat ->
           geb (Vec3.squared_length (Random.candidate rs k i)) (lit 1) = true.
Proof.
  induction fuel as [|fuel IH]; intros k p k' Hret.
  - discriminate.
  - cbn [Random.random_in_unit_sphere] in Hret.
    rewrite body_is_candidate in Hret.
    destruct (geb (Vec3.squared_length (Random.candidate rs k 0)) (lit 1))
      eqn:Hc.
    + destruct (IH _ _ _ Hret) as [j [Hj [Hp [Hk [Hacc Hrej]]]]].
      exists (S j). rewrite candidate_next in Hp.
      split; [lia|]. split; [exact Hp|]. split; [lia|].
      split; [exact Hacc|].
      intros [|i] Hi; [exact Hc|].
      rewrite <- candidate_next. apply Hrej. lia.
    + injection Hret as <- <-. exists 0%nat.
      split; [lia|]. split; [reflexivity|]. split; [lia|].
      split; [exact Hc|]. intros i Hi. lia.
Qed.
End GenericSampler.

(** X12: for every component type and every stream of draws, whatever a
    call of [random_in_unit_sphere] started at position [k] returns is one
    of the candidates, the first whose squared length is not [>= 1.0]; all
    candidates before it were [>= 1.0], and the generator has advanced by
    exactly three draws per pass. *)
Theorem returned_is_first_not_rejected :
  forall (T : Type) (Sc : Scalar T) (rs : nat -> T) (fuel k : nat)
         (p : Vec3.t T) (k' : nat),
    Random.random_in_unit_sphere rs fuel k = Some (p, k') ->
    exists j,
      (j < fuel)%nat
      /\ p = Random.candidate rs k j
      /\ k' = (k + 3 * S j)%nat
      /\ geb (Vec3.squared_length p) (lit 1) = false
      /\ forall i, (i < j)%nat ->
           geb (Vec3.squared_length (Random.candidate rs k i)) (lit 1) = true.
Proof.
  intros T Sc rs fuel. apply returned_candidate.
Qed.

Lemma returned_is_first_not_rejected_witness :
  exists j,
    (j < 2)%nat
    /\ vec3 0 0 0 = Random.candidate rs_sample 0 j
    /\ 6%nat = (0 + 3 * S j)%nat
    /\ geb (Vec3.squared_length (vec3 0 0 0)) (lit 1) = false
    /\ forall i, (i < j)%nat ->
         geb (Vec3.squared_length (Random.candidate rs_sample 0 i)) (lit 1)
         = true.
Proof.
  apply (returned_is_first_not_rejected
           double binary64 rs_sample 2 0 (vec3 0 0 0) 6).
  reflexivity.
Defined.

Lemma remap_nan (r : double) :
  is_nan r = true -> is_nan (sub (mul r (lit 2)) (lit 1)) = true.
Proof. destruct r; try discriminate. reflexivity. Qed.

(** X13: on doubles the loop tests [>= 1.0], which is false on NaN: if one
    of the three draws of a pass is NaN, that pass ends the loop and the
    call returns its candidate, whose squared length is NaN and not
    [< 1]. *)
Theorem nan_draw_ends_loop :
  forall (rs : nat -> double) (k fuel : nat),
    is_nan (rs k) || is_nan (rs (S k)) || is_nan (rs (S (S k))) = true ->
    Random.random_in_unit_sphere rs (S fuel) k
    = Some (Random.candidate rs k 0, (k + 3)%nat)
    /\ is_nan (Vec3.squared_length (Random.candidate rs k 0)) = true
    /\ ltb (Vec3.squared_length (Random.candidate rs k 0)) (of_Z 1) = false.
Proof.
  intros rs k fuel Hn.
  assert (Hs : is_nan (Vec3.squared_length (Random.candidate rs k 0)) = true).
  { apply squared_length_nan. unfold Random.candidate.
    replace (k + 3 * 0)%nat with k by lia.
    unfold Vec3.minus, Vec3.scale_l, Vec3.splat.
    simpl Vec3.x; simpl Vec3.y; simpl Vec3.z.
    rewrite !orb_true_iff in Hn. rewrite !orb_true_iff.
    destruct Hn as [[Hn|Hn]|Hn]; [left; left|left; right|right];
      apply remap_nan, Hn. }
  split; [|split].
  - cbn [Random.random_in_unit_sphere]. rewrite body_is_candidate.
    destruct (Vec3.squared_length (Random.candidate rs k 0));
      try discriminate. reflexivity.
  - exact Hs.
  - destruct (Vec3.squared_length (Random.candidate rs k 0));
      try discriminate. reflexivity.
Qed.

Lemma nan_draw_ends_loop_witness :
  Random.random_in_unit_sphere (fun _ => nan) 1 0
  = Some (Vec3.splat nan, 3%nat).
Proof.
  apply (proj1 (nan_draw_ends_loop (fun _ => nan) 0 0 eq_refl)).
Defined.

(** ** Normalising doubles that are not finite *)

Definition pinf : double := S754_infinity false.

Lemma add_pinf_l (b : double) : nonneg b = true -> add pinf b = pinf.
Proof. destruct b as [s|s| |s m e]; try discriminate; destruct s;
         try discriminate; reflexivity. Qed.

Lemma add_pinf_r (a : double) : nonneg a = true -> add a pinf = pinf.
Proof. destruct a as [s|s| |s m e]; try discriminate; destruct s;
         try discriminate; reflexivity. Qed.

Lemma square_inf (a : double) : is_inf a = true -> mul a a = pinf.
Proof. destruct a as [s|s| |s m e]; try discriminate. destruct s; reflexivity. Qed.

Lemma div_nan_r (a : double) : div a nan = nan.
Proof. destruct a; reflexivity. Qed.

Lemma div_pinf_nan (a : double) :
  is_nan a = false -> is_nan (div a pinf) = is_inf a.
Proof. destruct a; try discriminate; reflexivity. Qed.

Lemma div_pinf_inf_or_zero (a : double) :
  is_nan a = false -> is_inf a || is_zero (div a pinf) = true.
Proof. destruct a; try discriminate; reflexivity. Qed.

Lemma length_pinf (v : Vec3.t double) :
  all3 (fun a => negb (is_nan a)) v = true ->
  is_inf (Vec3.x v) || is_inf (Vec3.y v) || is_inf (Vec3.z v) = true ->
  Vec3.length v = pinf.
Proof.
  unfold all3. rewrite !andb_true_iff, !negb_true_iff, !orb_true_iff.
  intros [[Hx Hy] Hz] Hi.
  assert (Sx : nonneg (mul (Vec3.x v) (Vec3.x v)) = true)
    by (apply B64Facts.square_nonneg, Hx).
  assert (Sy : nonneg (mul (Vec3.y v) (Vec3.y v)) = true)
    by (apply B64Facts.square_nonneg, Hy).
  assert (Sz : nonneg (mul (Vec3.z v) (Vec3.z v)) = true)
    by (apply B64Facts.square_nonneg, Hz).
  assert (Hs : Vec3.squared_length v = pinf).
  { unfold Vec3.squared_length. destruct Hi as [[Hi|Hi]|Hi].
    - rewrite (square_inf _ Hi), (add_pinf_l _ Sy), (add_pinf_l _ Sz).
      reflexivity.
    - rewrite (square_inf _ Hi), (add_pinf_r _ Sx), (add_pinf_l _ Sz).
      reflexivity.
    - rewrite (square_inf _ Hi). apply add_pinf_r.
      apply (B64Facts.add_nonneg _ _ Sx Sy). }
  change (Vec3.length v) with (sqrt (Vec3.squared_length v)).
  rewrite Hs. reflexivity.
Qed.

(** X25: on doubles a single NaN component makes every component of the
    normalised vector NaN; with no NaN but an infinite component the length
    is [+inf] and the normalised vector has NaN exactly in the infinite
    components and a zero in every other one. *)
Theorem normalized_not_finite_binary64 :
  forall v : Vec3.t double,
    (is_nan (Vec3.x v) || is_nan (Vec3.y v) || is_nan (Vec3.z v) = true ->
     Vec3.normalized v = Vec3.splat nan)
    /\ (all3 (fun a => negb (is_nan a)) v = true ->
        is_inf (Vec3.x v) || is_inf (Vec3.y v) || is_inf (Vec3.z v) = true ->
        Vec3.length v = pinf
        /\ is_nan (Vec3.x (Vec3.normalized v)) = is_inf (Vec3.x v)
        /\ is_nan (Vec3.y (Vec3.normalized v)) = is_inf (Vec3.y v)
        /\ is_nan (Vec3.z (Vec3.normalized v)) = is_inf (Vec3.z v)
        /\ all3 (fun a => is_nan a || is_zero a) (Vec3.normalized v) = true).
Proof.
  intros v. split.
  - intros Hn.
    assert (Hl : Vec3.length v = nan).
    { pose proof (squared_length_nan v Hn) as Hs.
      change (Vec3.length v) with (sqrt (Vec3.squared_length v)).
      destruct (Vec3.squared_length v); try discriminate. reflexivity. }
    unfold Vec3.normalized. rewrite Hl, !div_nan_r. reflexivity.
  - intros Hnn Hi. pose proof (length_pinf v Hnn Hi) as Hl.
    unfold all3 in Hnn. rewrite !andb_true_iff, !negb_true_iff in Hnn.
    destruct Hnn as [[Hx Hy] Hz].
    unfold Vec3.normalized, all3. rewrite Hl.
    cbv zeta. cbn [Vec3.x Vec3.y Vec3.z].
    rewrite (div_pinf_nan _ Hx), (div_pinf_nan _ Hy), (div_pinf_nan _ Hz).
    repeat split.
    rewrite (div_pinf_inf_or_zero _ Hx), (div_pinf_inf_or_zero _ Hy),
      (div_pinf_inf_or_zero _ Hz). reflexivity.
Qed.

Lemma normalized_not_finite_binary64_witness :
  Vec3.normalized (Vec3.mk (of_Z 1) nan (of_Z 2)) = Vec3.splat nan
  /\ Vec3.length (Vec3.mk pinf (of_Z 1) (of_Z 2)) = pinf.
Proof.
  split.
  - apply (proj1 (normalized_not_finite_binary64
                    (Vec3.mk (of_Z 1) nan (of_Z 2)))).
    reflexivity.
  - apply (proj2 (normalized_not_finite_binary64
                    (Vec3.mk pinf (of_Z 1) (of_Z 2))));
      reflexivity.
Defined.

(** ** Negation and the sign of zero on binary64 *)

Module B64Sign.
Import B64 B64Facts.

(** The sign of a double; NaN has none in the model. *)
Definition sign_bit (a : double) : bool :=
  match a with
  | S754_zero s | S754_infinity s | S754_finite s _ _ => s
  | S754_nan => false
  end.

(** Identical, or zeros that may differ in sign. *)
Definition same_or_zeros (a b : double) : Prop :=
  a = b \/ (is_zero a = true /\ is_zero b = true).

Lemma same_or_zeros_refl a : same_or_zeros a a.
Proof. left. reflexivity. Qed.

Lemma same_or_zeros_sym a b : same_or_zeros a b -> same_or_zeros b a.
Proof. intros [->|[Ha Hb]]; [left; reflexivity | right; split; assumption]. Qed.

Lemma binary_round_aux_opp s mx ex lx :
  SFopp (binary_round_aux prec emax s mx ex lx)
  = binary_round_aux prec emax (negb s) mx ex lx.
Proof.
  unfold binary_round_aux.
  destruct (shr_fexp prec emax mx ex lx) as [mrs' e'].
  destruct (shr_fexp prec emax _ e' loc_Exact) as [mrs'' e''].
  destruct (shr_m mrs'') as [|m|m]; simpl; try reflexivity.
  destruct (_ <=? _); reflexivity.
Qed.

Lemma binary_round_opp s m e :
  SFopp (binary_round prec emax s m e) = binary_round prec emax (negb s) m e.
Proof.
  unfold binary_round. destruct (shl_align m e _) as [mz ez].
  apply binary_round_aux_opp.
Qed.

Lemma binary_normalize_opp m e :
  same_or_zeros (binary_normalize prec emax m e false)
                (SFopp (binary_normalize prec emax (- m) e false)).
Proof.
  destruct m as [|p|p]; simpl.
  - right. split; reflexivity.
  - left. rewrite binary_round_opp. reflexivity.
  - left. rewrite binary_round_opp. reflexivity.
Qed.

Lemma mul_opp_l (a b : double) : mul (opp a) b = opp (mul a b).
Proof.
  change (SFmul prec emax (SFopp a) b = SFopp (SFmul prec emax a b)).
  destruct a as [sa|sa| |sa ma ea], b as [sb|sb| |sb mb eb];
    try reflexivity;
    try (simpl; rewrite negb_xorb_l; reflexivity).
  unfold SFmul, SFopp at 1.
  rewrite binary_round_aux_opp, negb_xorb_l. reflexivity.
Qed.

Lemma mul_opp_opp (a b : double) : mul (opp a) (opp b) = mul a b.
Proof.
  rewrite mul_opp_l, (B64Algebra.mul_comm a (opp b)), mul_opp_l,
    B64Algebra.opp_involutive. apply B64Algebra.mul_comm.
Qed.

Lemma sub_antisym (a b : double) :
  same_or_zeros (sub a b) (opp (sub b a)).
Proof.
  change (same_or_zeros (SFsub prec emax a b) (SFopp (SFsub prec emax b a))).
  destruct a as [sa|sa| |sa ma ea], b as [sb|sb| |sb mb eb];
    try (left; reflexivity);
    try (destruct sa, sb; (left; reflexivity) || (right; split; reflexivity));
    try (destruct sa; left; reflexivity);
    try (destruct sb; left; reflexivity).
  unfold SFsub. rewrite (Z.min_comm eb ea).
  set (ez := Z.min ea eb).
  set (X := cond_Zopp sa (Z.pos (fst (shl_align ma ea ez)))).
  set (Y := cond_Zopp sb (Z.pos (fst (shl_align mb eb ez)))).
  replace (Y - X) with (- (X - Y)) by lia.
  apply binary_normalize_opp.
Qed.

Lemma sub_self (a : double) :
  sub a a = if B64Algebra.is_finite a then pzero else nan.
Proof.
  destruct (B64Algebra.is_finite a) eqn:Ha.
  - apply B64Algebra.sub_diag, Ha.
  - apply B64Algebra.sub_diag_not_finite, Ha.
Qed.

Lemma sub_zero_r (a z0 : double) :
  is_zero z0 = true -> same_or_zeros (sub a z0) a.
Proof.
  intros Hz. destruct z0 as [sz|sz| |sz mz ez]; try discriminate.
  destruct a as [sa|sa| |sa ma ea]; try (left; reflexivity).
  right. split; [destruct sa, sz|]; reflexivity.
Qed.

Lemma mul_zero_is_zero (b z0 : double) :
  B64Algebra.is_finite b = true -> is_zero z0 = true ->
  is_zero (mul b z0) = true.
Proof.
  intros Hb Hz. destruct z0; try discriminate.
  destruct b; try discriminate; reflexivity.
Qed.

Lemma same_or_zeros_square (a b : double) :
  same_or_zeros a b -> mul a a = mul b b.
Proof.
  intros [->|[Ha Hb]]; [reflexivity|].
  destruct a as [sa|sa| |sa ma ea]; try discriminate.
  destruct b as [sb|sb| |sb mb eb]; try discriminate.
  destruct sa, sb; reflexivity.
Qed.

Lemma same_or_zeros_eqb (a b : double) :
  is_nan a = false -> same_or_zeros a b -> eqb a b = true.
Proof.
  intros Hn [<-|[Ha Hb]].
  - rewrite B64Algebra.eqb_self, Hn. reflexivity.
  - destruct a; try discriminate. destruct b; try discriminate. reflexivity.
Qed.

Lemma square_signed (a : double) :
  is_nan a = false -> signed false (mul a a).
Proof.
  change (is_nan a = false -> signed false (SFmul prec emax a a)).
  destruct a as [sa|sa| |sa ma ea]; simpl; intros Ha; try discriminate;
    try (destruct sa; reflexivity).
  replace false with (xorb sa sa) at 1 by (destruct sa; reflexivity).
  apply binary_round_aux_signed. lia.
Qed.

Lemma add_signed (a b : double) :
  signed false a -> signed false b -> signed false (add a b).
Proof.
  change (signed false a -> signed false b ->
          signed false (SFadd prec emax a b)).
  destruct a as [sa|sa| |sa ma ea], b as [sb|sb| |sb mb eb]; simpl;
    intros Ha Hb; try contradiction; subst; try reflexivity.
  apply binary_round_signed.
Qed.

Lemma sqrt_signed (a : double) : signed false a -> signed false (sqrt a).
Proof.
  change (signed false a -> signed false (SFsqrt prec emax a)).
  destruct a as [s|s| |s m e]; simpl; intros Ha; try contradiction; subst;
    try reflexivity.
  destruct (SFsqrt_core_binary prec emax (Z.pos m) e) as [[mz ez] lz] eqn:Hc.
  apply binary_round_aux_signed.
  unfold SFsqrt_core_binary in Hc.
  destruct (Z.sqrtrem _) as [q r] eqn:Hq in Hc.
  injection Hc as <- _ _.
  change q with (fst (q, r)). rewrite <- Hq, Z.sqrtrem_sqrt.
  apply Z.sqrt_nonneg.
Qed.

Lemma length_signed (v : Vec3.t double) :
  is_nan (Vec3.x v) = false -> is_nan (Vec3.y v) = false ->
  is_nan (Vec3.z v) = false -> signed false (Vec3.length v).
Proof.
  intros Hx Hy Hz. unfold Vec3.length.
  apply sqrt_signed, add_signed; [apply add_signed|];
    apply square_signed; assumption.
Qed.

Lemma div_signed (a l : double) :
  signed false l -> is_nan (div a l) = false ->
  sign_bit (div a l) = sign_bit a.
Proof.
  change (signed false l -> is_nan (SFdiv prec emax a l) = false ->
          sign_bit (SFdiv prec emax a l) = sign_bit a).
  intros Hl Hn.
  destruct l as [sl|sl| |sl ml el]; simpl in Hl; try contradiction; subst sl;
    destruct a as [sa|sa| |sa ma ea]; simpl in Hn; try discriminate;
    try (simpl; apply xorb_false_r).
  unfold SFdiv in *.
  destruct (SFdiv_core_binary prec emax (Z.pos ma) ea (Z.pos ml) el)
    as [[mz ez] lz] eqn:Hc.
  assert (Hq : 0 <= mz).
  { unfold SFdiv_core_binary in Hc.
    set (m' := match _ with Z.pos _ => _ | 0 => Z.pos ma | Z.neg _ => 0 end)
      in Hc.
    assert (Hm : 0 <= m').
    { unfold m'. destruct (_ - _ - _); try lia. apply Z.shiftl_nonneg. lia. }
    pose proof (Z.div_pos m' (Z.pos ml) Hm ltac:(lia)) as Hd.
    unfold Z.div in Hd.
    destruct (Z.div_eucl m' (Z.pos ml)) as [q r].
    injection Hc as <- _ _. exact Hd. }
  pose proof (binary_round_aux_signed (xorb sa false) mz ez lz Hq) as Hs.
  destruct (binary_round_aux prec emax (xorb sa false) mz ez lz);
    simpl in Hs; try contradiction; simpl; rewrite Hs; apply xorb_false_r.
Qed.

End B64Sign.

(** X14: on doubles [cross(l,r)] and [-cross(r,l)] agree in every
    component, except that a component that is zero in both may differ in
    sign; and [cross(v,v)] is [(+0,-0,+0)] wherever the products of the
    components involved are finite, with NaN where such a product is
    infinite or NaN. *)
Theorem cross_anticommutative_binary64 :
  forall l r : Vec3.t double,
    B64Sign.same_or_zeros (Vec3.x (Vec3.cross l r))
                          (Vec3.x (Vec3.neg (Vec3.cross r l)))
    /\ B64Sign.same_or_zeros (Vec3.y (Vec3.cross l r))
                             (Vec3.y (Vec3.neg (Vec3.cross r l)))
    /\ B64Sign.same_or_zeros (Vec3.z (Vec3.cross l r))
                             (Vec3.z (Vec3.neg (Vec3.cross r l)))
    /\ Vec3.cross l l
       = Vec3.mk (self_difference (mul (Vec3.y l) (Vec3.z l)))
                 (opp (self_difference (mul (Vec3.x l) (Vec3.z l))))
                 (self_difference (mul (Vec3.x l) (Vec3.y l))).
Proof.
  intros [a b c] [d e f]. unfold Vec3.cross, Vec3.neg.
  cbn [Vec3.x Vec3.y Vec3.z].
  split; [|split; [|split]].
  - rewrite (B64Algebra.mul_comm e c), (B64Algebra.mul_comm f b).
    apply B64Sign.sub_antisym.
  - rewrite (B64Algebra.mul_comm d c), (B64Algebra.mul_comm f a),
      B64Algebra.opp_involutive.
    apply B64Sign.same_or_zeros_sym, B64Sign.sub_antisym.
  - rewrite (B64Algebra.mul_comm d b), (B64Algebra.mul_comm e a).
    apply B64Sign.sub_antisym.
  - rewrite (B64Algebra.mul_comm c b), (B64Algebra.mul_comm c a),
      (B64Algebra.mul_comm b a), !B64Sign.sub_self.
    reflexivity.
Qed.

(** X17: on doubles negating both operands leaves [dot], the componentwise
    product and [cross] unchanged, and negating a vector leaves its
    [squared_length] and [length] unchanged. *)
Theorem negation_preserves_length_binary64 :
  forall a b : Vec3.t double,
    Vec3.dot (Vec3.neg a) (Vec3.neg b) = Vec3.dot a b
    /\ Vec3.hadamard (Vec3.neg a) (Vec3.neg b) = Vec3.hadamard a b
    /\ Vec3.cross (Vec3.neg a) (Vec3.neg b) = Vec3.cross a b
    /\ Vec3.squared_length (Vec3.neg a) = Vec3.squared_length a
    /\ Vec3.length (Vec3.neg a) = Vec3.length a.
Proof.
  intros [a1 a2 a3] [b1 b2 b3].
  unfold Vec3.dot, Vec3.hadamard, Vec3.cross, Vec3.squared_length,
    Vec3.length, Vec3.neg.
  cbn [Vec3.x Vec3.y Vec3.z].
  rewrite !B64Sign.mul_opp_opp. repeat split.
Qed.

(** X19: on doubles normalising never flips a sign: every component of
    [normalized(v)] that is not NaN has the sign of the same component of
    [v]. *)
Theorem normalized_keeps_sign_binary64 :
  forall v : Vec3.t double,
    (is_nan (Vec3.x (Vec3.normalized v)) = false ->
     B64Sign.sign_bit (Vec3.x (Vec3.normalized v))
     = B64Sign.sign_bit (Vec3.x v))
    /\ (is_nan (Vec3.y (Vec3.normalized v)) = false ->
        B64Sign.sign_bit (Vec3.y (Vec3.normalized v))
        = B64Sign.sign_bit (Vec3.y v))
    /\ (is_nan (Vec3.z (Vec3.normalized v)) = false ->
        B64Sign.sign_bit (Vec3.z (Vec3.normalized v))
        = B64Sign.sign_bit (Vec3.z v)).
Proof.
  intros v.
  destruct (is_nan (Vec3.x v) || is_nan (Vec3.y v) || is_nan (Vec3.z v))
    eqn:Hn.
  - assert (Hl : Vec3.length v = nan).
    { pose proof (squared_length_nan v Hn) as Hs.
      change (Vec3.length v) with (sqrt (Vec3.squared_length v)).
      destruct (Vec3.squared_length v); try discriminate. reflexivity. }
    unfold Vec3.normalized. rewrite Hl. cbv zeta. cbn [Vec3.x Vec3.y Vec3.z].
    rewrite !div_nan_r. repeat split; intros; discriminate.
  - apply orb_false_iff in Hn. destruct Hn as [Hn Hz].
    apply orb_false_iff in Hn. destruct Hn as [Hx Hy].
    pose proof (B64Sign.length_signed v Hx Hy Hz) as Hl.
    unfold Vec3.normalized. cbv zeta. cbn [Vec3.x Vec3.y Vec3.z].
    repeat split; apply B64Sign.div_signed; exact Hl.
Qed.

Lemma normalized_keeps_sign_binary64_witness :
  B64Sign.sign_bit (Vec3.x (Vec3.normalized (vec3 3 (-4) 0))) = false
  /\ B64Sign.sign_bit (Vec3.y (Vec3.normalized (vec3 3 (-4) 0))) = true.
Proof.
  split.
  - apply (proj1 (normalized_keeps_sign_binary64 (vec3 3 (-4) 0))).
    reflexivity.
  - apply (proj1 (proj2 (normalized_keeps_sign_binary64 (vec3 3 (-4) 0)))).
    reflexivity.
Defined.

(** X20: on doubles, when [dot(v,n)] computes to a zero and [n] is finite,
    [reflect(v,n)] returns [v]: every component is that of [v], except that
    a zero component may change sign, and [squared_length] and [length] are
    those of [v]. *)
Theorem reflect_tangential_binary64 :
  forall v n : Vec3.t double,
    is_zero (Vec3.dot v n) = true ->
    all3 B64Algebra.is_finite n = true ->
    B64Sign.same_or_zeros (Vec3.x (Vec3.reflect v n)) (Vec3.x v)
    /\ B64Sign.same_or_zeros (Vec3.y (Vec3.reflect v n)) (Vec3.y v)
    /\ B64Sign.same_or_zeros (Vec3.z (Vec3.reflect v n)) (Vec3.z v)
    /\ Vec3.squared_length (Vec3.reflect v n) = Vec3.squared_length v
    /\ Vec3.length (Vec3.reflect v n) = Vec3.length v.
Proof.
  intros v n Hd Hn.
  unfold all3 in Hn. rewrite !andb_true_iff in Hn.
  destruct Hn as [[Hx Hy] Hz].
  assert (Hs : is_zero (mul (lit 2) (Vec3.dot v n)) = true).
  { destruct (Vec3.dot v n); try discriminate. reflexivity. }
  set (s := mul (lit 2) (Vec3.dot v n)) in *.
  assert (Cx : B64Sign.same_or_zeros (Vec3.x (Vec3.reflect v n)) (Vec3.x v))
    by (apply B64Sign.sub_zero_r, B64Sign.mul_zero_is_zero; assumption).
  assert (Cy : B64Sign.same_or_zeros (Vec3.y (Vec3.reflect v n)) (Vec3.y v))
    by (apply B64Sign.sub_zero_r, B64Sign.mul_zero_is_zero; assumption).
  assert (Cz : B64Sign.same_or_zeros (Vec3.z (Vec3.reflect v n)) (Vec3.z v))
    by (apply B64Sign.sub_zero_r, B64Sign.mul_zero_is_zero; assumption).
  assert (Hq : Vec3.squared_length (Vec3.reflect v n)
               = Vec3.squared_length v).
  { unfold Vec3.squared_length.
    rewrite (B64Sign.same_or_zeros_square _ _ Cx),
      (B64Sign.same_or_zeros_square _ _ Cy),
      (B64Sign.same_or_zeros_square _ _ Cz). reflexivity. }
  repeat split; try assumption.
  change (sqrt (Vec3.squared_length (Vec3.reflect v n))
          = sqrt (Vec3.squared_length v)).
  rewrite Hq. reflexivity.
Qed.

Lemma reflect_tangential_binary64_witness :
  Vec3.length (Vec3.reflect (vec3 0 5 0) (vec3 1 0 0))
  = Vec3.length (vec3 0 5 0).
Proof.
  apply (reflect_tangential_binary64 (vec3 0 5 0) (vec3 1 0 0));
    reflexivity.
Defined.

(** ** Reflection when the doubled dot product overflows *)







